(** * railway-image-service: the HTTP front of [cmd/server/main.go]

    A shallow embedding of the request handling that [main] wires
    together: the [/serve/*] credential handler, the route table of the
    blob store, and the parts of the Go standard library the handler
    calls ([strings.TrimPrefix], [crypto/subtle.ConstantTimeCompare],
    [url.Values], [http.Header]).  The packages [client/sign] and
    [internal/app/keyval] that [main] imports are modelled from the
    design document, each definition saying so.

    Layout: the definitions (modules [Go], [sign], [keyval], [Main]),
    then the lemmas and theorems. *)

From Stdlib Require Import ZArith Lia.
From stdpp Require Import gmap strings list pretty.

Local Open Scope Z_scope.

(** ** Go standard library *)

Module Go.

(** [strings.HasPrefix(s, prefix)] *)
Fixpoint HasPrefix (s prefix : string) {struct prefix} : bool :=
  match prefix, s with
  | EmptyString, _ => true
  | String c p, String d t => if Ascii.eqb c d then HasPrefix t p else false
  | String _ _, EmptyString => false
  end.

(** [strings.TrimPrefix(s, prefix)]: [s] without the leading [prefix],
    or [s] itself when it does not start with [prefix]. *)
Fixpoint drop_string (n : nat) (s : string) : string :=
  match n, s with
  | O, _ => s
  | S n, String _ t => drop_string n t
  | S _, EmptyString => EmptyString
  end.

Definition TrimPrefix (s prefix : string) : string :=
  if HasPrefix s prefix then drop_string (String.length prefix) s else s.

(** [[]byte(s)]: the bytes of a string, each an integer in [0, 256). *)
Fixpoint bytes (s : string) : list Z :=
  match s with
  | EmptyString => []
  | String c t => Z.of_N (Ascii.N_of_ascii c) :: bytes t
  end.

(** [subtle.ConstantTimeByteEq(x, y uint8) int]:
    [int((uint32(x^y) - 1) >> 31)], the subtraction wrapping at 32 bits. *)
Definition ConstantTimeByteEq (x y : Z) : Z :=
  Z.shiftr ((Z.lxor x y - 1) mod 2 ^ 32) 31.

(** The loop of [subtle.ConstantTimeCompare]:
    [for i := 0; i < len(x); i++ { v |= x[i] ^ y[i] }], [v] a byte. *)
Fixpoint xor_fold (v : Z) (x y : list Z) : Z :=
  match x, y with
  | a :: x', b :: y' => xor_fold (Z.lor v (Z.lxor a b) mod 2 ^ 8) x' y'
  | _, _ => v
  end.

(** [subtle.ConstantTimeCompare(x, y []byte) int]: 0 at once when the
    lengths differ, else the folded difference compared with 0. *)
Definition ConstantTimeCompare (x y : list Z) : Z :=
  if negb (Nat.eqb (length x) (length y)) then 0
  else ConstantTimeByteEq (xor_fold 0 x y) 0.

(** [url.Values] and [http.Header] are both [map[string][]string]. *)
Abbreviation Values := (gmap string (list string)).

(** [Values.Get(key)]: the first value of [key], or the empty string. *)
Definition Values_Get (v : Values) (key : string) : string :=
  match v !! key with
  | Some (x :: _) => x
  | _ => ""%string
  end.

(** [Values.Del(key)] *)
Definition Values_Del (v : Values) (key : string) : Values := delete key v.

Definition is_lower (c : Ascii.ascii) : bool :=
  let n := Ascii.N_of_ascii c in ((97 <=? n) && (n <=? 122))%N.
Definition is_upper (c : Ascii.ascii) : bool :=
  let n := Ascii.N_of_ascii c in ((65 <=? n) && (n <=? 90))%N.
Definition to_upper (c : Ascii.ascii) : Ascii.ascii :=
  if is_lower c then Ascii.ascii_of_N (Ascii.N_of_ascii c - 32) else c.
Definition to_lower (c : Ascii.ascii) : Ascii.ascii :=
  if is_upper c then Ascii.ascii_of_N (Ascii.N_of_ascii c + 32) else c.

(** [textproto.CanonicalMIMEHeaderKey] on a header token: the first
    letter and every letter after a hyphen in upper case, the others in
    lower case. *)
Fixpoint canonical (upper : bool) (s : string) : string :=
  match s with
  | EmptyString => EmptyString
  | String c t =>
      String (if upper then to_upper c else to_lower c)
             (canonical (Ascii.eqb c (Ascii.ascii_of_N 45)) t)
  end.

Definition CanonicalMIMEHeaderKey (s : string) : string := canonical true s.

(** [Header.Get(key)]: the first value stored under the canonical form
    of [key], or the empty string. *)
Definition Header_Get (h : Values) (key : string) : string :=
  Values_Get h (CanonicalMIMEHeaderKey key).

(** [strings.Split(s, sep)] for a separator [sep] of one byte: the
    pieces of [s] between the separators, in order; a string without
    separator, the empty one too, is its own single piece. *)
Fixpoint SplitByte (s : string) (sep : Ascii.ascii) : list string :=
  match s with
  | EmptyString => [EmptyString]
  | String c t =>
      if Ascii.eqb c sep then EmptyString :: SplitByte t sep
      else match SplitByte t sep with
           | piece :: pieces => String c piece :: pieces
           | [] => [String c EmptyString]
           end
  end.

(** [slices.Contains(l, x)] on strings. *)
Definition Contains (l : list string) (x : string) : bool :=
  existsb (String.eqb x) l.

(** [strings.IndexByte(s, c) >= 0]: does the byte occur in [s]? *)
Fixpoint occurs (c : Ascii.ascii) (s : string) : bool :=
  match s with
  | EmptyString => false
  | String d t => Ascii.eqb d c || occurs c t
  end.

(** [strings.Count(s, sep)] for a separator of one byte. *)
Fixpoint CountByte (s : string) (sep : Ascii.ascii) : nat :=
  match s with
  | EmptyString => O
  | String c t => (if Ascii.eqb c sep then 1 else 0) + CountByte t sep
  end.

End Go.


(** ** The signer ([client/sign], [internal/app/signature]) *)

Module sign.

Section Signer.

(** The keyed hash (an HMAC of the Go standard library): key, then
    message. *)
Variable keyedHash : string -> string -> string.

(** Modelled from the spec: the package [client/sign] is not among
    the sources.  A signature is {path, expiry (optional), mac}. *)
Record Signature := {
  path : string;
  expiry : option Z;
  mac : string
}.

(** Modelled from the spec: the verifier of [client/sign] is missing.
    The three outcomes of a verification. *)
Inductive Verdict := Valid | Invalid | Expired.

(** Modelled from the spec: [client/sign] is missing.  The
    canonical form is the decoded request path concatenated with the
    expiry if present. *)
Definition canonicalize (p : string) (e : option Z) : string :=
  match e with
  | Some t => p +:+ pretty t
  | None => p
  end.

(** Modelled from the spec: [sign.Sign] is missing.
    mac = keyedHash(secret, canonicalize(path, expiry)); omitting the
    expiry yields a perpetual token. *)
Definition Sign (p secret : string) (e : option Z) : Signature :=
  {| path := p; expiry := e; mac := keyedHash secret (canonicalize p e) |}.

(** Modelled from the spec: the verifier is missing.  The mac is
    recomputed over the request path and the token's expiry and compared
    in constant time; a token whose mac matches and whose expiry lies in
    the past is [Expired], not [Invalid]. *)
Definition Verify (p : string) (token : Signature) (secret : string) (now : Z)
  : Verdict :=
  let expected := keyedHash secret (canonicalize p (expiry token)) in
  if Z.eqb (Go.ConstantTimeCompare (Go.bytes (mac token)) (Go.bytes expected)) 1
  then match expiry token with
       | Some t => if Z.ltb t now then Expired else Valid
       | None => Valid
       end
  else Invalid.

End Signer.

End sign.

(** ** The blob store ([internal/app/keyval]) *)

Module keyval.

(** [keyval.Config], the fields [main] sets (the logger apart). *)
Record Config := {
  BasePath : string;
  UploadPath : string;
  LevelDBPath : string;
  SoftDelete : bool;
  SignSecret : string;
  MaxSize : Z;
  AllowedMimeTypes : list string;
  Debug : bool
}.

(** Modelled from the spec: the package [internal/app/keyval] is
    not among the sources.  One metadata record per blob key. *)
Record BlobMetadata := {
  key : string;
  contentType : string;
  sizeBytes : Z;
  checksum : string;
  createdAt : Z;
  modifiedAt : Z;
  deletedAt : option Z;
  etag : string
}.

(** Modelled from the spec: [keyval]'s storage is missing.  The
    metadata index, the content files under the upload root, and the
    temporary files of uploads in flight. *)
Record Store := {
  index : gmap string BlobMetadata;
  content : gmap string (list Z);
  temps : gmap string (list Z)
}.

(** Modelled from the spec: the errors of [keyval] are missing.  The
    error taxonomy of the design. *)
Inductive Error :=
  | Unauthorized | Forbidden | NotFound | PreconditionFailed
  | PayloadTooLarge | UnsupportedMediaType | ExpiredToken | IOError
  | LockContention.

(** Modelled from the spec: the ingestion pipeline is missing.  What
    can go wrong around one upload: the client leaves after [n] bytes,
    the write of byte [n] to the temporary file fails, or one of the
    later steps of the protocol fails. *)
Inductive Fault :=
  | NoFault
  | ClientDisconnect (n : nat)
  | TempWriteError (n : nat)
  | PersistError
  | MoveError
  | CommitError.

(** Modelled from the spec: the ingestion pipeline is missing.  Does
    the fault strike when [n] bytes have been received? *)
Definition disconnects_at (f : Fault) (n : nat) : bool :=
  match f with ClientDisconnect m => Nat.eqb m n | _ => false end.

(** Modelled from the spec: the ingestion pipeline is missing.  Does
    the write of byte [n] fail? *)
Definition write_fails_at (f : Fault) (n : nat) : bool :=
  match f with TempWriteError m => Nat.eqb m n | _ => false end.

(** Modelled from the spec: the ingestion pipeline is missing.  Is [f]
    the fault of the protocol step [g]? *)
Definition fault_is (f g : Fault) : bool :=
  match f, g with
  | PersistError, PersistError | MoveError, MoveError
  | CommitError, CommitError => true
  | _, _ => false
  end.

(** Modelled from the spec: the ingestion pipeline is missing.  How
    the streaming of a body ends. *)
Inductive StreamResult :=
  | StreamDone | StreamTooLarge | StreamIOError | StreamDisconnected.

(** Modelled from the spec: the ingestion pipeline is missing.
    Step (1): the body is streamed to the temporary file byte by byte,
    [n] bytes written so far into [acc]; the upload is aborted once the
    byte ceiling is exceeded. *)
Fixpoint stream (maxSize : Z) (f : Fault) (n : nat) (acc body : list Z)
  : StreamResult * list Z :=
  match body with
  | [] => (StreamDone, acc)
  | b :: rest =>
      if disconnects_at f n then (StreamDisconnected, acc)
      else if Z.ltb maxSize (Z.of_nat (S n)) then (StreamTooLarge, acc)
      else if write_fails_at f n then (StreamIOError, acc)
      else stream maxSize f (S n) (acc ++ [b]) rest
  end.

(** Modelled from the spec: the allow-list is matched by prefix. *)
Definition mimeAllowed (cfg : Config) (ct : string) : bool :=
  existsb (fun p => Go.HasPrefix ct p) (AllowedMimeTypes cfg).

(** Modelled from the spec: the ingestion pipeline is missing.  An
    upload: key, declared content type, [If-Match], body, and the name
    of its temporary file. *)
Record PutRequest := {
  putKey : string;
  putContentType : string;
  putIfMatch : option string;
  putBody : list Z;
  putTemp : string
}.

(** Modelled from the spec: the ingestion pipeline is missing.  An
    upload is stored, fails with an error, or is aborted by the client. *)
Inductive PutResult :=
  | Stored (m : BlobMetadata)
  | Failed (e : Error)
  | Aborted.

(** Modelled from the spec: [If-Match] is honoured against the
    current ETag before any bytes are written. *)
Definition ifMatchOk (req : PutRequest) (st : Store) : bool :=
  match putIfMatch req with
  | None => true
  | Some tag =>
      match index st !! putKey req with
      | Some m => String.eqb tag (etag m)
      | None => false
      end
  end.

(** Modelled from the spec: the content store is missing.  The
    temporary file with the bytes received. *)
Definition writeTemp (name : string) (data : list Z) (st : Store) : Store :=
  {| index := index st; content := content st;
     temps := <[name := data]> (temps st) |}.

(** Modelled from the spec: the content store is missing.  The
    temporary file is discarded. *)
Definition discardTemp (name : string) (st : Store) : Store :=
  {| index := index st; content := content st;
     temps := delete name (temps st) |}.

(** Modelled from the spec: the content store is missing.  Step (3):
    the temporary file is moved into place atomically. *)
Definition moveTemp (name k : string) (st : Store) : Store :=
  match temps st !! name with
  | Some data =>
      {| index := index st; content := <[k := data]> (content st);
         temps := delete name (temps st) |}
  | None => st
  end.

(** Modelled from the spec: the content store is missing.  Partial
    writes are always rolled back: the content of the key is put back
    to what it was before the move, [old], a missing file staying
    missing. *)
Definition restoreContent (k : string) (old : option (list Z)) (st : Store)
  : Store :=
  {| index := index st;
     content := match old with
                | Some data => <[k := data]> (content st)
                | None => delete k (content st)
                end;
     temps := temps st |}.

(** Modelled from the spec: the metadata index is missing.  Step (4),
    [Put(key, metadata)]: an upsert. *)
Definition commit (m : BlobMetadata) (st : Store) : Store :=
  {| index := <[key m := m]> (index st); content := content st;
     temps := temps st |}.

Section Ingestion.

(** The checksum of the content, and the ETag, deterministic from
    checksum and modification time. *)
Variable checksumOf : list Z -> string.
Variable etagOf : string -> Z -> string.

(** Modelled from the spec: the ingestion pipeline is missing.  The
    record committed by an upload: checksum, size, content type,
    timestamps, [deletedAt] cleared. *)
Definition newMetadata (req : PutRequest) (now : Z) (st : Store)
  : BlobMetadata :=
  let sum := checksumOf (putBody req) in
  {| key := putKey req;
     contentType := putContentType req;
     sizeBytes := Z.of_nat (length (putBody req));
     checksum := sum;
     createdAt := match index st !! putKey req with
                  | Some old => createdAt old
                  | None => now
                  end;
     modifiedAt := now;
     deletedAt := None;
     etag := etagOf sum now |}.

(** Modelled from the spec: the ingestion pipeline ([PUT]) is
    missing.  The durability protocol: (1) stream to a temporary file,
    (2) on clean EOF within the limit persist it, (3) move it into place
    atomically, (4) only then commit the metadata upsert.  A failure at
    any step discards the temporary file and commits nothing; a failed
    commit rolls the move back, so that no content stays without its
    metadata record. *)
Definition Put (cfg : Config) (now : Z) (f : Fault) (req : PutRequest)
  (st : Store) : PutResult * Store :=
  if negb (ifMatchOk req st) then (Failed PreconditionFailed, st)
  else if negb (mimeAllowed cfg (putContentType req))
  then (Failed UnsupportedMediaType, st)
  else
    let '(res, written) := stream (MaxSize cfg) f 0 [] (putBody req) in
    let st1 := writeTemp (putTemp req) written st in
    match res with
    | StreamTooLarge => (Failed PayloadTooLarge, discardTemp (putTemp req) st1)
    | StreamIOError => (Failed IOError, discardTemp (putTemp req) st1)
    | StreamDisconnected => (Aborted, discardTemp (putTemp req) st1)
    | StreamDone =>
        if fault_is f PersistError
        then (Failed IOError, discardTemp (putTemp req) st1)
        else if fault_is f MoveError
        then (Failed IOError, discardTemp (putTemp req) st1)
        else
          let st2 := moveTemp (putTemp req) (putKey req) st1 in
          if fault_is f CommitError
          then (Failed IOError,
                discardTemp (putTemp req)
                  (restoreContent (putKey req) (content st !! putKey req) st2))
          else
            let m := newMetadata req now st in
            (Stored m, commit m st2)
    end.

End Ingestion.

(** Modelled from the spec: the ingestion pipeline is missing.  Was
    the blob stored? *)
Definition succeeded (r : PutResult) : bool :=
  match r with Stored _ => true | _ => false end.

(** Modelled from the spec: the metadata index is missing.  The record
    with [deletedAt] set. *)
Definition tombstone (now : Z) (m : BlobMetadata) : BlobMetadata :=
  {| key := key m; contentType := contentType m; sizeBytes := sizeBytes m;
     checksum := checksum m; createdAt := createdAt m;
     modifiedAt := modifiedAt m; deletedAt := Some now; etag := etag m |}.

(** Modelled from the spec: the metadata index is missing.
    [Delete(key)] sets [deletedAt] (soft) or removes the record (hard)
    per configuration. *)
Definition IndexDelete (cfg : Config) (now : Z) (k : string)
  (idx : gmap string BlobMetadata) : gmap string BlobMetadata :=
  if SoftDelete cfg then alter (tombstone now) k idx else delete k idx.


(** Modelled from the spec: the retrieval pipeline is missing.  The
    outcome of a [DELETE]. *)
Inductive DeleteResult := Deleted | DeleteFailed (e : Error).

(** Modelled from the spec: the retrieval pipeline ([DELETE]) is
    missing.  A soft delete sets [deletedAt] and retains the bytes, a
    hard delete removes both content and metadata; the design names no
    error for a delete, so a key that is absent or already deleted is
    answered like any other. *)
Definition Delete (cfg : Config) (now : Z) (k : string) (st : Store)
  : DeleteResult * Store :=
  (Deleted,
   {| index := IndexDelete cfg now k (index st);
      content := if SoftDelete cfg then content st
                 else delete k (content st);
      temps := temps st |}).

End keyval.

(** ** [cmd/server/main.go] *)

Module Main.

(** The fields of the loaded configuration that [main] reads. *)
Record Config := {
  Environment : string;
  SecretKey : string;
  SignatureSecretKey : string;
  Public : string;
  MaxUploadSize : Z;
  UploadPath : string;
  LevelDBPath : string
}.

(** A [*http.Request], as far as the handlers look at it: [r.URL.Path],
    the parsed [r.URL.RawQuery] and the headers under their canonical
    names. *)
Record Request := {
  Method : string;
  Path : string;
  Query : Go.Values;
  Header : Go.Values
}.

(** Either the handler answered itself, or it handed the rewritten
    request to [imagorService.ServeHTTP]. *)
Inductive Outcome :=
  | Responded (status : Z) (body : string)
  | Forwarded (r : Request).

Definition StatusUnauthorized : Z := 401.

Inductive Handler := HealthChecker | ServeImage | KvService | SignatureService.

(** [mw.NewVerifyAPIKey(secret)] and
    [mw.NewVerifyAccess(secret, signatureSecret)]. *)
Inductive Middleware :=
  | VerifyAPIKey (secret : string)
  | VerifyAccess (secret signatureSecret : string).

(** One [app.Get], [app.Put] or [app.Delete] call: method, pattern,
    handler, and the handlers given after it. *)
Record Route := {
  rMethod : string;
  rPath : string;
  rHandler : Handler;
  rMiddleware : list Middleware
}.

(** Matching of a registered pattern under [StrictRouting]: a trailing
    [*] matches any rest, everything else is literal. *)
Fixpoint matchPath (pattern p : string) {struct pattern} : bool :=
  match pattern with
  | EmptyString => match p with EmptyString => true | _ => false end
  | String c rest =>
      if Ascii.eqb c (Ascii.ascii_of_N 42) && String.eqb rest ""
      then true
      else match p with
           | String d t => Ascii.eqb c d && matchPath rest t
           | EmptyString => false
           end
  end.

Section Server.

(** Constants and functions of packages outside [cmd/server/main.go]. *)
Variable EnvironmentDevelopment : string.
Variable HealthCheckEndpoint : string.
Variable Sign : string -> string -> string.

Definition debug (cfg : Config) : bool :=
  String.eqb (Environment cfg) EnvironmentDevelopment.

(** The [keyval.Config] literal. *)
Definition kvConfig (cfg : Config) : keyval.Config :=
  {| keyval.BasePath := "/blob";
     keyval.UploadPath := UploadPath cfg;
     keyval.LevelDBPath := LevelDBPath cfg;
     keyval.SoftDelete := true;
     keyval.SignSecret := SignatureSecretKey cfg;
     keyval.MaxSize := MaxUploadSize cfg;
     keyval.AllowedMimeTypes := ["image/"%string];
     keyval.Debug := debug cfg |}.

(** The two [log.Warn] calls before the middleware is built. *)
Definition startupWarnings (cfg : Config) : list string :=
  (if String.eqb (Environment cfg) EnvironmentDevelopment
   then ["running in development mode, signed URLs are not required"%string]
   else []) ++
  (if String.eqb (SecretKey cfg) ""
   then ["no secret key provided, API key verification is disabled"%string]
   else []).

(** The first part of the [/serve/*] handler: the signature of the
    request, from the query and else from the header. *)
Definition requestSignature (r : Request) : string :=
  let sig := Go.Values_Get (Query r) "x-signature" in
  if String.eqb sig "" then Go.Header_Get (Header r) "x-signature" else sig.

(** The end of the handler: the path rewritten under [sig], the
    signature removed from the query, and the request handed on. *)
Definition forward (r : Request) (sig : string) : Outcome :=
  Forwarded
    {| Method := Method r;
       Path := "/" +:+ sig +:+ Go.TrimPrefix (Path r) "/serve";
       Query := Go.Values_Del (Query r) "x-signature";
       Header := Header r |}.

(** The handler of [GET /serve/*]. *)
Definition serve (cfg : Config) (r : Request) : Outcome :=
  let sig := requestSignature r in
  if String.eqb sig "" then
    let apiKey := Go.Header_Get (Header r) "x-api-key" in
    if negb (String.eqb apiKey "") then
      if negb (Z.eqb (Go.ConstantTimeCompare (Go.bytes apiKey)
                                             (Go.bytes (SecretKey cfg))) 1)
      then Responded StatusUnauthorized "unauthorized"
      else forward r (Sign (Path r) (SignatureSecretKey cfg))
    else forward r "unsafe"
  else forward r sig.



(** The routes, in the order [main] registers them. *)
Definition routes (cfg : Config) : list Route :=
  let verifyAPIKey := VerifyAPIKey (SecretKey cfg) in
  let verifyAccess := VerifyAccess (SecretKey cfg) (SignatureSecretKey cfg) in
  [ {| rMethod := "GET"; rPath := HealthCheckEndpoint;
       rHandler := HealthChecker; rMiddleware := [] |};
    {| rMethod := "GET"; rPath := "/serve/*";
       rHandler := ServeImage; rMiddleware := [] |};
    {| rMethod := "GET"; rPath := "/blob";
       rHandler := KvService; rMiddleware := [verifyAccess] |};
    (if String.eqb (Public cfg) "true"
     then {| rMethod := "GET"; rPath := "/blob/*";
             rHandler := KvService; rMiddleware := [] |}
     else {| rMethod := "GET"; rPath := "/blob/*";
             rHandler := KvService; rMiddleware := [verifyAccess] |});
    {| rMethod := "PUT"; rPath := "/blob/*";
       rHandler := KvService; rMiddleware := [verifyAccess] |};
    {| rMethod := "DELETE"; rPath := "/blob/*";
       rHandler := KvService; rMiddleware := [verifyAccess] |};
    {| rMethod := "GET"; rPath := "/sign/*";
       rHandler := SignatureService; rMiddleware := [verifyAPIKey] |} ].

(** The route that answers a request: the first one registered whose
    method and pattern match. *)
Definition matches (method p : string) (rt : Route) : bool :=
  String.eqb (rMethod rt) method && matchPath (rPath rt) p.

Definition dispatch (cfg : Config) (method p : string) : option Route :=
  List.find (matches method p) (routes cfg).

(** A route is guarded when the access-verification middleware built
    from the configured secrets is among its handlers. *)
Definition guarded (cfg : Config) (rt : Route) : bool :=
  existsb (fun m => match m with
                    | VerifyAccess a b =>
                        String.eqb a (SecretKey cfg) &&
                        String.eqb b (SignatureSecretKey cfg)
                    | VerifyAPIKey _ => false
                    end) (rMiddleware rt).

End Server.

(** The [cors.Config] literal of [main]. *)
Record CorsConfig := {
  AllowOrigins : list string;
  AllowMethods : list string;
  AllowHeaders : list string;
  ExposeHeaders : list string;
  AllowPrivateNetwork : bool;
  MaxAge : Z;
  AllowCredentials : bool
}.

(** [time.Hour], in nanoseconds. *)
Definition Hour : Z := 3600 * 1000000000.

(** The CORS middleware configuration, from [cfg.CORSAllowedOrigins]:
    the origins are the comma-separated entries, and credentials are
    allowed unless one entry is the wildcard. *)
Definition corsConfig (CORSAllowedOrigins : string) : CorsConfig :=
  let corsAllowedOrigins :=
    Go.SplitByte CORSAllowedOrigins (Ascii.ascii_of_N 44) in
  {| AllowOrigins := corsAllowedOrigins;
     AllowMethods := ["GET"; "HEAD"; "POST"; "PUT"; "PATCH"; "DELETE";
                      "OPTIONS"]%string;
     AllowHeaders := ["Origin"; "Content-Type"; "Accept"; "Cache-Control";
                      "If-Match"; "If-None-Match"; "x-api-key";
                      "x-signature"; "x-expire"]%string;
     ExposeHeaders := ["Content-Disposition"; "X-Request-ID"; "Content-Md5";
                       "Content-Range"; "Accept-Ranges"; "ETag"]%string;
     AllowPrivateNetwork := true;
     MaxAge := Hour;
     AllowCredentials := negb (Go.Contains corsAllowedOrigins "*") |}.

End Main.

(** ** Sample deployments, requests and stores *)

Definition sampleSign (p secret : string) : string := secret +:+ ":" +:+ p.

Definition production : Main.Config :=
  {| Main.Environment := "production"; Main.SecretKey := "key";
     Main.SignatureSecretKey := "sigkey"; Main.Public := "false";
     Main.MaxUploadSize := 10; Main.UploadPath := "/data/uploads";
     Main.LevelDBPath := "/data/db" |}.

Definition keyless : Main.Config :=
  {| Main.Environment := "production"; Main.SecretKey := "";
     Main.SignatureSecretKey := "sigkey"; Main.Public := "false";
     Main.MaxUploadSize := 10; Main.UploadPath := "/data/uploads";
     Main.LevelDBPath := "/data/db" |}.

Definition developmentPublic : Main.Config :=
  {| Main.Environment := "development"; Main.SecretKey := "key";
     Main.SignatureSecretKey := "sigkey"; Main.Public := "true";
     Main.MaxUploadSize := 99; Main.UploadPath := "/tmp/uploads";
     Main.LevelDBPath := "/tmp/db" |}.

Definition publicDeployment : Main.Config :=
  {| Main.Environment := "production"; Main.SecretKey := "key";
     Main.SignatureSecretKey := "sigkey"; Main.Public := "true";
     Main.MaxUploadSize := 10; Main.UploadPath := "/data/uploads";
     Main.LevelDBPath := "/data/db" |}.

Definition bareRequest : Main.Request :=
  {| Main.Method := "GET"; Main.Path := "/serve/200x200/cat.png";
     Main.Query := ∅; Main.Header := ∅ |}.

Definition wrongKeyRequest : Main.Request :=
  {| Main.Method := "GET"; Main.Path := "/serve/200x200/cat.png";
     Main.Query := ∅; Main.Header := {[ "X-Api-Key" := ["guess"] ]} |}.

Definition twiceSignedRequest : Main.Request :=
  {| Main.Method := "GET"; Main.Path := "/serve/200x200/cat.png";
     Main.Query := {[ "x-signature" := ["fromquery"] ]};
     Main.Header := {[ "X-Signature" := ["fromheader"] ]} |}.

(** The request with its headers replaced. *)
Definition withHeader (r : Main.Request) (h : Go.Values) : Main.Request :=
  {| Main.Method := Main.Method r; Main.Path := Main.Path r;
     Main.Query := Main.Query r; Main.Header := h |}.

(** A request without its [x-api-key] header. *)
Definition withoutApiKey (r : Main.Request) : Main.Request :=
  withHeader r (delete "X-Api-Key" (Main.Header r)).

(** The store configuration [main] builds for the sample deployment:
    soft delete, at most 10 bytes, images only. *)
Definition storeConfig : keyval.Config := Main.kvConfig "development" production.

Definition sampleChecksum (data : list Z) : string := pretty (length data).
Definition sampleEtag (sum : string) (t : Z) : string := sum +:+ "-" +:+ pretty t.

Definition catMetadata : keyval.BlobMetadata :=
  {| keyval.key := "cat.png"; keyval.contentType := "image/png";
     keyval.sizeBytes := 2; keyval.checksum := "2";
     keyval.createdAt := 1; keyval.modifiedAt := 1;
     keyval.deletedAt := None; keyval.etag := "2-1" |}.

Definition catStore : keyval.Store :=
  {| keyval.index := {[ "cat.png" := catMetadata ]};
     keyval.content := {[ "cat.png" := [137; 80] ]};
     keyval.temps := ∅ |}.

Definition dogUpload : keyval.PutRequest :=
  {| keyval.putKey := "dog.png"; keyval.putContentType := "image/png";
     keyval.putIfMatch := None; keyval.putBody := [1; 2; 3];
     keyval.putTemp := "upload-1" |}.

(** * Properties *)

(** *** Facts about the library model *)

Lemma HasPrefix_app (p s : string) : Go.HasPrefix (p +:+ s) p = true.
Proof.
  induction p as [|c p IH]; simpl; [reflexivity|].
  rewrite Ascii.eqb_refl. exact IH.
Qed.

Lemma drop_string_app (p s : string) :
  Go.drop_string (String.length p) (p +:+ s) = s.
Proof. induction p as [|c p IH]; simpl; [reflexivity | exact IH]. Qed.

Lemma TrimPrefix_app (p s : string) : Go.TrimPrefix (p +:+ s) p = s.
Proof.
  unfold Go.TrimPrefix. rewrite HasPrefix_app. apply drop_string_app.
Qed.

Definition is_byte (z : Z) : Prop := 0 <= z < 2 ^ 8.

Lemma bytes_range (s : string) : Forall is_byte (Go.bytes s).
Proof.
  induction s as [|c t IH]; simpl; constructor; [|exact IH].
  pose proof (Ascii.N_ascii_bounded c). unfold is_byte. lia.
Qed.

Lemma bytes_inj (s t : string) : Go.bytes s = Go.bytes t -> s = t.
Proof.
  revert t. induction s as [|c s IH]; intros [|d t] H; simpl in H;
    try discriminate; [reflexivity|].
  injection H as Hc Ht. f_equal; [|apply IH, Ht].
  apply N2Z.inj in Hc.
  rewrite <- (Ascii.ascii_N_embedding c), <- (Ascii.ascii_N_embedding d).
  now rewrite Hc.
Qed.

Lemma lor_byte (a b : Z) : is_byte a -> is_byte b -> is_byte (Z.lor a b).
Proof.
  unfold is_byte. intros Ha Hb. split; [apply Z.lor_nonneg; lia|].
  destruct (Z.eq_dec (Z.lor a b) 0) as [->|Hne]; [lia|].
  assert (0 <= Z.lor a b) by (apply Z.lor_nonneg; lia).
  apply Z.log2_lt_pow2; [lia|].
  rewrite Z.log2_lor by lia.
  apply Z.max_lub_lt.
  - destruct (Z.eq_dec a 0) as [->|]; [simpl; lia|].
    apply Z.log2_lt_pow2; lia.
  - destruct (Z.eq_dec b 0) as [->|]; [simpl; lia|].
    apply Z.log2_lt_pow2; lia.
Qed.

Lemma lxor_byte (a b : Z) : is_byte a -> is_byte b -> is_byte (Z.lxor a b).
Proof.
  unfold is_byte. intros Ha Hb.
  assert (0 <= Z.lxor a b) by (apply Z.lxor_nonneg; lia).
  split; [lia|].
  destruct (Z.eq_dec (Z.lxor a b) 0) as [->|Hne]; [lia|].
  apply Z.log2_lt_pow2; [lia|].
  eapply Z.le_lt_trans; [apply Z.log2_lxor; lia|].
  apply Z.max_lub_lt.
  - destruct (Z.eq_dec a 0) as [->|]; [simpl; lia|].
    apply Z.log2_lt_pow2; lia.
  - destruct (Z.eq_dec b 0) as [->|]; [simpl; lia|].
    apply Z.log2_lt_pow2; lia.
Qed.

(** One step of the loop keeps [v] a byte, and [v] stays 0 exactly
    while the two bytes agree. *)
Lemma xor_step_byte (v a b : Z) :
  is_byte v -> is_byte a -> is_byte b ->
  Z.lor v (Z.lxor a b) mod 2 ^ 8 = Z.lor v (Z.lxor a b).
Proof.
  intros Hv Ha Hb. apply Z.mod_small.
  apply lor_byte; [exact Hv | apply lxor_byte; assumption].
Qed.

Lemma xor_step_zero (v a b : Z) :
  Z.lor v (Z.lxor a b) = 0 <-> v = 0 /\ a = b.
Proof.
  rewrite Z.lor_eq_0_iff. split; intros [Hv Hx]; split; try exact Hv.
  - apply Z.lxor_eq, Hx.
  - subst b. apply Z.lxor_nilpotent.
Qed.

Lemma xor_fold_zero (x : list Z) : forall (y : list Z) (v : Z),
  is_byte v -> Forall is_byte x -> Forall is_byte y ->
  length x = length y ->
  Go.xor_fold v x y = 0 <-> v = 0 /\ x = y.
Proof.
  induction x as [|a x IH]; intros [|b y] v Hv Hx Hy Hlen;
    simpl in Hlen; try discriminate; simpl.
  - split; [intros ->; split; reflexivity | intros [-> _]; reflexivity].
  - inversion Hx as [|? ? Ha Hx']; inversion Hy as [|? ? Hb Hy']; subst.
    rewrite xor_step_byte by assumption.
    rewrite IH; try assumption; try lia.
    + rewrite xor_step_zero. split.
      * intros [[-> ->] ->]. split; reflexivity.
      * intros [-> Heq]. injection Heq as -> ->. repeat split.
    + apply lor_byte; [assumption | apply lxor_byte; assumption].
Qed.

Lemma ConstantTimeByteEq_zero (v : Z) :
  is_byte v -> Go.ConstantTimeByteEq v 0 = if Z.eqb v 0 then 1 else 0.
Proof.
  unfold is_byte, Go.ConstantTimeByteEq. intros Hv.
  rewrite Z.lxor_0_r. destruct (Z.eqb_spec v 0) as [->|Hne].
  - reflexivity.
  - rewrite Z.mod_small by lia. rewrite Z.shiftr_div_pow2 by lia.
    apply Z.div_small. lia.
Qed.

(** [ConstantTimeCompare] returns 1 exactly on equal byte slices, and
    0 otherwise. *)
Lemma ConstantTimeCompare_bytes (x y : list Z) :
  Forall is_byte x -> Forall is_byte y ->
  Go.ConstantTimeCompare x y = if decide (x = y) then 1 else 0.
Proof.
  intros Hx Hy. unfold Go.ConstantTimeCompare.
  destruct (Nat.eqb_spec (length x) (length y)) as [Hlen|Hlen]; simpl.
  - assert (Hv : is_byte 0) by (unfold is_byte; lia).
    pose proof (xor_fold_zero x y 0 Hv Hx Hy Hlen) as Hz.
    assert (Hb : is_byte (Go.xor_fold 0 x y)).
    { clear Hz. revert Hv. generalize 0 at 1 2. revert y Hy Hlen.
      induction Hx as [|a x Ha Hx IH]; intros [|b y] Hy Hlen v Hv;
        simpl in *; try assumption; try discriminate.
      inversion Hy; subst. rewrite xor_step_byte by assumption.
      apply IH; [assumption | lia |].
      apply lor_byte; [assumption | apply lxor_byte; assumption]. }
    rewrite ConstantTimeByteEq_zero by exact Hb.
    destruct (Z.eqb_spec (Go.xor_fold 0 x y) 0) as [E|E];
      destruct (decide (x = y)) as [D|D]; try reflexivity.
    + apply Hz in E. destruct E; contradiction.
    + exfalso. apply E, Hz. split; [reflexivity | exact D].
  - destruct (decide (x = y)) as [->|D]; [contradiction | reflexivity].
Qed.

Lemma ConstantTimeCompare_string (s t : string) :
  Go.ConstantTimeCompare (Go.bytes s) (Go.bytes t) =
  if String.eqb s t then 1 else 0.
Proof.
  rewrite ConstantTimeCompare_bytes by apply bytes_range.
  destruct (String.eqb_spec s t) as [->|Hne].
  - destruct (decide (Go.bytes t = Go.bytes t)); [reflexivity | contradiction].
  - destruct (decide (Go.bytes s = Go.bytes t)) as [E|E]; [|reflexivity].
    apply bytes_inj in E. contradiction.
Qed.

(** ** The [/serve/*] handler *)

(** The comparison of the API key with the secret is an equality test. *)
Lemma api_key_check (apiKey secret : string) :
  negb (Z.eqb (Go.ConstantTimeCompare (Go.bytes apiKey) (Go.bytes secret)) 1)
  = negb (String.eqb apiKey secret).
Proof.
  rewrite ConstantTimeCompare_string.
  destruct (String.eqb apiKey secret); reflexivity.
Qed.

Lemma serve_with_signature Sign cfg r :
  Main.requestSignature r <> "" ->
  Main.serve Sign cfg r = Main.forward r (Main.requestSignature r).
Proof.
  intros H. unfold Main.serve.
  destruct (String.eqb_spec (Main.requestSignature r) ""); congruence.
Qed.

Lemma serve_with_api_key Sign cfg r :
  Main.requestSignature r = "" ->
  Go.Header_Get (Main.Header r) "x-api-key" <> "" ->
  Main.serve Sign cfg r =
  if String.eqb (Go.Header_Get (Main.Header r) "x-api-key") (Main.SecretKey cfg)
  then Main.forward r (Sign (Main.Path r) (Main.SignatureSecretKey cfg))
  else Main.Responded 401 "unauthorized".
Proof.
  intros Hs Hk. unfold Main.serve. rewrite Hs. simpl.
  destruct (String.eqb_spec (Go.Header_Get (Main.Header r) "x-api-key") "")
    as [E|E]; [contradiction|]. simpl.
  rewrite api_key_check.
  destruct (String.eqb _ (Main.SecretKey cfg)); reflexivity.
Qed.

Lemma serve_without_credentials Sign cfg r :
  Main.requestSignature r = "" ->
  Go.Header_Get (Main.Header r) "x-api-key" = "" ->
  Main.serve Sign cfg r = Main.forward r "unsafe".
Proof.
  intros Hs Hk. unfold Main.serve. rewrite Hs, Hk. reflexivity.
Qed.

Example serve_wrong_key :
  Main.serve sampleSign production wrongKeyRequest
  = Main.Responded 401 "unauthorized".
Proof. reflexivity. Qed.

Example serve_query_over_header :
  Main.serve sampleSign production twiceSignedRequest
  = Main.Forwarded
      {| Main.Method := "GET"; Main.Path := "/fromquery/200x200/cat.png";
         Main.Query := ∅;
         Main.Header := {[ "X-Signature" := ["fromheader"] ]} |}.
Proof. vm_compute. reflexivity. Qed.







(** C2, as stated, fails: outside development and outside public mode a
    request with neither signature nor API key is not answered by the
    handler but handed to the image service under the reserved token. *)
Lemma reserved_token_forwarded :
  ~ (forall (dev : string) (Sign : string -> string -> string)
       (cfg : Main.Config) (r : Main.Request),
       Main.debug dev cfg = false ->
       Main.Public cfg <> "true" ->
       Main.requestSignature r = "" ->
       Go.Header_Get (Main.Header r) "x-api-key" = "" ->
       exists status body, Main.serve Sign cfg r = Main.Responded status body).
Proof.
  intros H.
  destruct (H "development"%string sampleSign production bareRequest)
    as (status & body & E); try reflexivity.
  - vm_compute. congruence.
  - vm_compute in E. discriminate E.
Qed.

(** C2, amended: whatever the configuration, a [/serve/*] request with
    neither signature nor API key is handed to the image service with
    its path rewritten under the reserved token "unsafe" and the
    signature parameter removed from its query; the handler answers
    nothing itself. *)
Theorem reserved_token_handed_on (Sign : string -> string -> string)
  (cfg : Main.Config) (r : Main.Request) :
  Main.requestSignature r = "" ->
  Go.Header_Get (Main.Header r) "x-api-key" = "" ->
  Main.serve Sign cfg r =
  Main.Forwarded
    {| Main.Method := Main.Method r;
       Main.Path := "/unsafe" +:+ Go.TrimPrefix (Main.Path r) "/serve";
       Main.Query := delete "x-signature" (Main.Query r);
       Main.Header := Main.Header r |}.
Proof.
  intros Hs Hk. rewrite serve_without_credentials by assumption.
  reflexivity.
Qed.

Lemma reserved_token_handed_on_witness :
  Main.serve sampleSign production bareRequest =
  Main.Forwarded
    {| Main.Method := "GET"; Main.Path := "/unsafe/200x200/cat.png";
       Main.Query := ∅; Main.Header := ∅ |}.
Proof.
  exact (reserved_token_handed_on sampleSign production bareRequest
           eq_refl eq_refl).
Defined.

(** C9: a non-empty [x-signature] query parameter is the signature of
    the request whatever the headers say, so a request carrying both is
    handed on under the query's value; the header is read only when the
    query parameter is empty. *)
Theorem query_signature_first (Sign : string -> string -> string)
  (cfg : Main.Config) (r : Main.Request) :
  (Go.Values_Get (Main.Query r) "x-signature" <> "" ->
   (forall h, Main.requestSignature (withHeader r h) =
              Go.Values_Get (Main.Query r) "x-signature") /\
   Main.serve Sign cfg r =
   Main.forward r (Go.Values_Get (Main.Query r) "x-signature")) /\
  (Go.Values_Get (Main.Query r) "x-signature" = "" ->
   Main.requestSignature r = Go.Header_Get (Main.Header r) "x-signature").
Proof.
  split.
  - intros Hq.
    assert (Hsig : forall h, Main.requestSignature (withHeader r h) =
                             Go.Values_Get (Main.Query r) "x-signature").
    { intros h. unfold Main.requestSignature. simpl.
      destruct (String.eqb_spec (Go.Values_Get (Main.Query r) "x-signature") "");
        [contradiction | reflexivity]. }
    split; [exact Hsig|].
    assert (Hr : Main.requestSignature r =
                 Go.Values_Get (Main.Query r) "x-signature").
    { rewrite <- (Hsig (Main.Header r)). destruct r; reflexivity. }
    rewrite serve_with_signature by (rewrite Hr; exact Hq).
    rewrite Hr. reflexivity.
  - intros Hq. unfold Main.requestSignature. rewrite Hq. reflexivity.
Qed.

Lemma query_signature_first_witness :
  Main.serve sampleSign production twiceSignedRequest =
  Main.forward twiceSignedRequest "fromquery".
Proof.
  apply (query_signature_first sampleSign production twiceSignedRequest).
  vm_compute. congruence.
Defined.

Lemma withoutApiKey_signature r :
  Main.requestSignature (withoutApiKey r) = Main.requestSignature r.
Proof.
  unfold Main.requestSignature, withoutApiKey, Go.Header_Get, Go.Values_Get.
  simpl. change (Go.CanonicalMIMEHeaderKey "x-signature") with "X-Signature".
  rewrite lookup_delete_ne by discriminate. reflexivity.
Qed.

Lemma withoutApiKey_key r :
  Go.Header_Get (Main.Header (withoutApiKey r)) "x-api-key" = "".
Proof.
  unfold withoutApiKey, Go.Header_Get, Go.Values_Get. simpl.
  change (Go.CanonicalMIMEHeaderKey "x-api-key") with "X-Api-Key".
  rewrite lookup_delete_eq. reflexivity.
Qed.

(** C10: with an empty configured secret, a [/serve/*] request without
    signature whose [x-api-key] header is non-empty is answered 401
    "unauthorized", although the start-up log says that API key
    verification is disabled; the same request without that header is
    handed on under the reserved token. *)
Theorem empty_secret_rejects_keys (dev : string)
  (Sign : string -> string -> string) (cfg : Main.Config) (r : Main.Request) :
  Main.SecretKey cfg = "" ->
  Main.requestSignature r = "" ->
  Go.Header_Get (Main.Header r) "x-api-key" <> "" ->
  Main.serve Sign cfg r = Main.Responded Main.StatusUnauthorized "unauthorized" /\
  In "no secret key provided, API key verification is disabled"%string
     (Main.startupWarnings dev cfg) /\
  Main.serve Sign cfg (withoutApiKey r) = Main.forward (withoutApiKey r) "unsafe".
Proof.
  intros Hsecret Hs Hk. repeat split.
  - rewrite serve_with_api_key by assumption. rewrite Hsecret.
    destruct (String.eqb_spec (Go.Header_Get (Main.Header r) "x-api-key") "");
      [contradiction | reflexivity].
  - unfold Main.startupWarnings. rewrite Hsecret. simpl.
    apply in_or_app. right. left. reflexivity.
  - apply serve_without_credentials.
    + rewrite withoutApiKey_signature. exact Hs.
    + apply withoutApiKey_key.
Qed.

Lemma empty_secret_rejects_keys_witness :
  Main.serve sampleSign keyless wrongKeyRequest =
  Main.Responded Main.StatusUnauthorized "unauthorized".
Proof.
  apply (empty_secret_rejects_keys "development" sampleSign keyless
           wrongKeyRequest); vm_compute; congruence.
Defined.

(** ** The route table *)

Lemma matchPath_step (c d : Ascii.ascii) (rest t : string) :
  Ascii.eqb c (Ascii.ascii_of_N 42) = false ->
  Main.matchPath (String c rest) (String d t) =
  Ascii.eqb c d && Main.matchPath rest t.
Proof. intros H. cbn [Main.matchPath]. rewrite H. reflexivity. Qed.

Lemma matchPath_end (c : Ascii.ascii) (rest : string) :
  Ascii.eqb c (Ascii.ascii_of_N 42) = false ->
  Main.matchPath (String c rest) "" = false.
Proof. intros H. cbn [Main.matchPath]. rewrite H. reflexivity. Qed.

Ltac match_char H p :=
  destruct p as [|? p];
  [rewrite matchPath_end in H by reflexivity; discriminate H|];
  rewrite matchPath_step in H by reflexivity;
  apply andb_prop in H as [?Hc H];
  apply Ascii.eqb_eq in Hc; subst.

(** A path under [/blob/] matches neither [/serve/*] nor [/blob]. *)
Lemma blob_key_path (p : string) :
  Main.matchPath "/blob/*" p = true ->
  Main.matchPath "/serve/*" p = false /\ Main.matchPath "/blob" p = false.
Proof.
  intros H. do 6 match_char H p. split; reflexivity.
Qed.

(** C1: whatever the configuration, a [PUT] or [DELETE] on a blob key
    and the [GET] of the collection are answered by a route that carries
    the access-verification middleware, while the [GET] of a blob key is
    answered by a route without it exactly when [Public] is "true". *)
Theorem blob_routes_guarded (health : string) (cfg : Main.Config) (p : string) :
  Main.matchPath "/blob/*" p = true ->
  Main.matchPath health p = false ->
  Main.matchPath health "/blob" = false ->
  (exists rt, Main.dispatch health cfg "PUT" p = Some rt /\
     Main.rHandler rt = Main.KvService /\ Main.guarded cfg rt = true) /\
  (exists rt, Main.dispatch health cfg "DELETE" p = Some rt /\
     Main.rHandler rt = Main.KvService /\ Main.guarded cfg rt = true) /\
  (exists rt, Main.dispatch health cfg "GET" "/blob" = Some rt /\
     Main.rHandler rt = Main.KvService /\ Main.guarded cfg rt = true) /\
  (exists rt, Main.dispatch health cfg "GET" p = Some rt /\
     Main.rHandler rt = Main.KvService /\
     (Main.guarded cfg rt = false <-> Main.Public cfg = "true")).
Proof.
  intros Hp Hh Hc.
  destruct (blob_key_path p Hp) as [Hserve Hcoll].
  assert (Hg : forall m pat h, Main.guarded cfg
            {| Main.rMethod := m; Main.rPath := pat;
               Main.rHandler := h;
               Main.rMiddleware :=
                 [Main.VerifyAccess (Main.SecretKey cfg)
                                    (Main.SignatureSecretKey cfg)] |} = true).
  { intros m pat h. unfold Main.guarded. simpl. now rewrite !String.eqb_refl. }
  assert (Hm : Main.matchPath "/blob" "/blob" = true) by reflexivity.
  unfold Main.dispatch, Main.routes, Main.matches.
  destruct (String.eqb_spec (Main.Public cfg) "true") as [E|E];
    cbn [List.find Main.rMethod Main.rPath];
    rewrite ?Hp, ?Hh, ?Hc, ?Hserve, ?Hcoll, ?Hm;
    change (String.eqb "GET" "PUT") with false;
    change (String.eqb "GET" "DELETE") with false;
    change (String.eqb "PUT" "DELETE") with false;
    change (String.eqb "PUT" "PUT") with true;
    change (String.eqb "DELETE" "DELETE") with true;
    change (String.eqb "GET" "GET") with true;
    cbn [andb];
    (repeat split; eexists; (split; [reflexivity | split; [reflexivity|]]));
    try apply Hg.
  - split; [intros _; exact E | intros _; reflexivity].
  - split; [intros G | intros G; contradiction].
    rewrite Hg in G. discriminate G.
Qed.

Lemma blob_routes_guarded_witness :
  exists rt, Main.dispatch "/health" production "PUT" "/blob/cat.png" = Some rt /\
    Main.rHandler rt = Main.KvService /\ Main.guarded production rt = true.
Proof.
  apply (blob_routes_guarded "/health" production "/blob/cat.png");
    reflexivity.
Defined.

(** ** The signer *)

(** C5: a token made by signing a path with a secret, no expiry given,
    verifies as valid for that path and that secret, at any time. *)
Theorem verify_sign_valid (keyedHash : string -> string -> string)
  (p s : string) (now : Z) :
  sign.Verify keyedHash p (sign.Sign keyedHash p s None) s now = sign.Valid.
Proof.
  unfold sign.Verify, sign.Sign. simpl.
  rewrite ConstantTimeCompare_string, String.eqb_refl. reflexivity.
Qed.

(** ** The blob store *)

(** C7: the soft-delete flag of the configuration selects the mode of
    [Delete]: set, the record of the key stays with [deletedAt] set;
    unset, the record is removed; the records of the other keys are as
    before, and [main] configures the store with the flag set. *)
Theorem delete_mode_by_flag (cfg : keyval.Config) (now : Z) (k : string)
  (idx : gmap string keyval.BlobMetadata) (m : keyval.BlobMetadata) :
  idx !! k = Some m ->
  (keyval.SoftDelete cfg = true ->
   keyval.IndexDelete cfg now k idx !! k = Some (keyval.tombstone now m) /\
   keyval.deletedAt (keyval.tombstone now m) = Some now) /\
  (keyval.SoftDelete cfg = false ->
   keyval.IndexDelete cfg now k idx !! k = None) /\
  (forall k', k' <> k -> keyval.IndexDelete cfg now k idx !! k' = idx !! k') /\
  (forall dev c, keyval.SoftDelete (Main.kvConfig dev c) = true).
Proof.
  intros Hm. unfold keyval.IndexDelete. split; [|split; [|split]].
  - intros ->. split; [|reflexivity].
    rewrite lookup_alter_eq, Hm. reflexivity.
  - intros ->. apply lookup_delete_eq.
  - intros k' Hne. destruct (keyval.SoftDelete cfg).
    + apply lookup_alter_ne. congruence.
    + apply lookup_delete_ne. congruence.
  - reflexivity.
Qed.





Lemma delete_mode_by_flag_witness :
  keyval.IndexDelete storeConfig 5 "cat.png" (keyval.index catStore) !! "cat.png"
  = Some (keyval.tombstone 5 catMetadata).
Proof.
  apply (delete_mode_by_flag storeConfig 5 "cat.png" (keyval.index catStore)
           catMetadata); reflexivity.
Defined.


Example delete_twice :
  fst (keyval.Delete storeConfig 5 "cat.png" catStore) = keyval.Deleted /\
  fst (keyval.Delete storeConfig 9 "cat.png"
         (snd (keyval.Delete storeConfig 5 "cat.png" catStore)))
  = keyval.Deleted.
Proof. split; reflexivity. Qed.

(** *** Ingestion *)

(** Without a fault the stream ends cleanly within the ceiling, and is
    cut once the ceiling is exceeded. *)
Lemma stream_within (maxSize : Z) (body : list Z) : forall (n : nat) (acc : list Z),
  Z.of_nat n + Z.of_nat (length body) <= maxSize ->
  keyval.stream maxSize keyval.NoFault n acc body = (keyval.StreamDone, acc ++ body).
Proof.
  induction body as [|b body IH]; intros n acc H; simpl.
  - now rewrite app_nil_r.
  - simpl in H. destruct (Z.ltb_spec maxSize (Z.of_nat (S n))) as [L|L]; [lia|].
    rewrite IH by lia. now rewrite <- app_assoc.
Qed.

Lemma stream_exceeds (maxSize : Z) (body : list Z) : forall (n : nat) (acc : list Z),
  Z.of_nat n <= maxSize ->
  maxSize < Z.of_nat n + Z.of_nat (length body) ->
  fst (keyval.stream maxSize keyval.NoFault n acc body) = keyval.StreamTooLarge.
Proof.
  induction body as [|b body IH]; intros n acc Hn H; simpl in *.
  - lia.
  - destruct (Z.ltb_spec maxSize (Z.of_nat (S n))) as [L|L]; [reflexivity|].
    apply IH; lia.
Qed.

Section IngestionProps.

Variable checksumOf : list Z -> string.
Variable etagOf : string -> Z -> string.

Lemma restore_moved (k : string) (w : list Z) (c : gmap string (list Z)) :
  match c !! k with
  | Some data => <[k := data]> (<[k := w]> c)
  | None => delete k (<[k := w]> c)
  end = c.
Proof.
  destruct (c !! k) as [old|] eqn:E.
  - rewrite insert_insert_eq. apply insert_id, E.
  - apply delete_insert_id, E.
Qed.

(** The store after an upload that did not succeed: the index and the
    content are the old ones and the temporary file is gone. *)
Lemma Put_failed (cfg : keyval.Config) (now : Z) (f : keyval.Fault)
  (req : keyval.PutRequest) (st : keyval.Store) :
  st.(keyval.temps) !! keyval.putTemp req = None ->
  keyval.succeeded (fst (keyval.Put checksumOf etagOf cfg now f req st)) = false ->
  keyval.index (snd (keyval.Put checksumOf etagOf cfg now f req st))
    = keyval.index st /\
  keyval.temps (snd (keyval.Put checksumOf etagOf cfg now f req st))
    = keyval.temps st /\
  keyval.content (snd (keyval.Put checksumOf etagOf cfg now f req st))
    = keyval.content st.
Proof.
  intros Hfresh. unfold keyval.Put.
  destruct (keyval.ifMatchOk req st); simpl; [|auto].
  destruct (keyval.mimeAllowed cfg (keyval.putContentType req)); simpl; [|auto].
  destruct (keyval.stream (keyval.MaxSize cfg) f 0 [] (keyval.putBody req))
    as [res written].
  assert (Hd : forall w, delete (keyval.putTemp req)
                 (<[keyval.putTemp req := w]> (keyval.temps st)) = keyval.temps st)
    by (intros w; apply delete_insert_id, Hfresh).
  destruct res; simpl; try (intros _; rewrite Hd; auto).
  destruct (keyval.fault_is f keyval.PersistError); simpl;
    [intros _; rewrite Hd; auto|].
  destruct (keyval.fault_is f keyval.MoveError); simpl;
    [intros _; rewrite Hd; auto|].
  destruct (keyval.fault_is f keyval.CommitError) eqn:Ef; simpl;
    [|discriminate].
  intros _. unfold keyval.moveTemp. simpl. rewrite lookup_insert_eq. simpl.
  rewrite delete_delete_eq, Hd. repeat split. apply restore_moved.
Qed.

Lemma Put_too_large (cfg : keyval.Config) (now : Z)
  (req : keyval.PutRequest) (st : keyval.Store) :
  keyval.ifMatchOk req st = true ->
  keyval.mimeAllowed cfg (keyval.putContentType req) = true ->
  0 <= keyval.MaxSize cfg ->
  keyval.MaxSize cfg < Z.of_nat (length (keyval.putBody req)) ->
  fst (keyval.Put checksumOf etagOf cfg now keyval.NoFault req st)
  = keyval.Failed keyval.PayloadTooLarge.
Proof.
  intros Hi Hm H0 Hlen. unfold keyval.Put. rewrite Hi, Hm. simpl.
  pose proof (stream_exceeds (keyval.MaxSize cfg) (keyval.putBody req) 0 []) as E.
  destruct (keyval.stream (keyval.MaxSize cfg) keyval.NoFault 0 []
              (keyval.putBody req)) as [res written].
  simpl in E. rewrite E by lia. reflexivity.
Qed.

Lemma Put_within (cfg : keyval.Config) (now : Z)
  (req : keyval.PutRequest) (st : keyval.Store) :
  keyval.ifMatchOk req st = true ->
  keyval.mimeAllowed cfg (keyval.putContentType req) = true ->
  Z.of_nat (length (keyval.putBody req)) <= keyval.MaxSize cfg ->
  keyval.Put checksumOf etagOf cfg now keyval.NoFault req st =
  (keyval.Stored (keyval.newMetadata checksumOf etagOf req now st),
   keyval.commit (keyval.newMetadata checksumOf etagOf req now st)
     (keyval.moveTemp (keyval.putTemp req) (keyval.putKey req)
        (keyval.writeTemp (keyval.putTemp req) (keyval.putBody req) st))).
Proof.
  intros Hi Hm Hlen. unfold keyval.Put. rewrite Hi, Hm. simpl.
  rewrite stream_within by (simpl; lia). reflexivity.
Qed.

End IngestionProps.

Example put_commit_failure :
  fst (keyval.Put sampleChecksum sampleEtag storeConfig 7 keyval.CommitError
         dogUpload catStore) = keyval.Failed keyval.IOError /\
  keyval.content
    (snd (keyval.Put sampleChecksum sampleEtag storeConfig 7 keyval.CommitError
            dogUpload catStore)) !! "dog.png" = None /\
  keyval.index
    (snd (keyval.Put sampleChecksum sampleEtag storeConfig 7 keyval.CommitError
            dogUpload catStore)) !! "dog.png" = None.
Proof. repeat split. Qed.

(** C4: an upload that fails at any step (byte ceiling, MIME type, I/O
    error, client gone) leaves no temporary file, and the metadata index
    and the content as they were.  With the precondition and the MIME
    type in order and no fault, a body of [MaxSize + 1] bytes fails with
    PayloadTooLarge and leaves the store as it was, so no record and no
    content for a new key, and a body of exactly [MaxSize] bytes is
    stored. *)
Theorem put_failure_atomic (checksumOf : list Z -> string)
  (etagOf : string -> Z -> string) (cfg : keyval.Config) (now : Z)
  (f : keyval.Fault) (req : keyval.PutRequest) (st : keyval.Store) :
  st.(keyval.temps) !! keyval.putTemp req = None ->
  (keyval.succeeded (fst (keyval.Put checksumOf etagOf cfg now f req st)) = false ->
   keyval.index (snd (keyval.Put checksumOf etagOf cfg now f req st))
     = keyval.index st /\
   keyval.temps (snd (keyval.Put checksumOf etagOf cfg now f req st))
     = keyval.temps st /\
   keyval.content (snd (keyval.Put checksumOf etagOf cfg now f req st))
     = keyval.content st) /\
  (keyval.ifMatchOk req st = true ->
   keyval.mimeAllowed cfg (keyval.putContentType req) = true ->
   0 <= keyval.MaxSize cfg ->
   Z.of_nat (length (keyval.putBody req)) = keyval.MaxSize cfg + 1 ->
   fst (keyval.Put checksumOf etagOf cfg now keyval.NoFault req st)
     = keyval.Failed keyval.PayloadTooLarge /\
   snd (keyval.Put checksumOf etagOf cfg now keyval.NoFault req st) = st) /\
  (keyval.ifMatchOk req st = true ->
   keyval.mimeAllowed cfg (keyval.putContentType req) = true ->
   Z.of_nat (length (keyval.putBody req)) = keyval.MaxSize cfg ->
   fst (keyval.Put checksumOf etagOf cfg now keyval.NoFault req st)
     = keyval.Stored (keyval.newMetadata checksumOf etagOf req now st) /\
   keyval.index (snd (keyval.Put checksumOf etagOf cfg now keyval.NoFault req st))
     !! keyval.putKey req
     = Some (keyval.newMetadata checksumOf etagOf req now st) /\
   keyval.content (snd (keyval.Put checksumOf etagOf cfg now keyval.NoFault req st))
     !! keyval.putKey req
     = Some (keyval.putBody req) /\
   keyval.temps (snd (keyval.Put checksumOf etagOf cfg now keyval.NoFault req st))
     = keyval.temps st).
Proof.
  intros Hfresh. split; [|split].
  - apply Put_failed, Hfresh.
  - intros Hi Hm H0 Hlen.
    assert (E : fst (keyval.Put checksumOf etagOf cfg now keyval.NoFault req st)
                = keyval.Failed keyval.PayloadTooLarge)
      by (apply Put_too_large; [assumption..|lia]).
    split; [exact E|].
    destruct (Put_failed checksumOf etagOf cfg now keyval.NoFault req st Hfresh)
      as (Hidx & Htmp & Hcontent); [rewrite E; reflexivity|].
    destruct (snd (keyval.Put checksumOf etagOf cfg now keyval.NoFault req st)),
      st; simpl in *; congruence.
  - intros Hi Hm Hlen. rewrite Put_within by (assumption || lia). simpl.
    unfold keyval.moveTemp. simpl. rewrite !lookup_insert_eq. simpl.
    rewrite delete_insert_id by exact Hfresh.
    repeat split; simpl; apply lookup_insert_eq.
Qed.

Lemma put_failure_atomic_witness :
  keyval.index
    (snd (keyval.Put sampleChecksum sampleEtag storeConfig 7
            (keyval.ClientDisconnect 1) dogUpload catStore))
  = keyval.index catStore.
Proof.
  apply (put_failure_atomic sampleChecksum sampleEtag storeConfig 7
           (keyval.ClientDisconnect 1) dogUpload catStore); reflexivity.
Defined.

(** * Further properties of [main] *)

(** ** What the [/serve/*] handler does in all cases *)

(** Every run of the handler ends in the 401 answer or in [forward]
    under one of three signatures. *)
Lemma serve_cases (Sign : string -> string -> string) (cfg : Main.Config)
  (r : Main.Request) :
  (Main.serve Sign cfg r = Main.Responded Main.StatusUnauthorized "unauthorized" /\
   Main.requestSignature r = "" /\
   Go.Header_Get (Main.Header r) "x-api-key" <> "" /\
   Go.Header_Get (Main.Header r) "x-api-key" <> Main.SecretKey cfg) \/
  (exists sig, Main.serve Sign cfg r = Main.forward r sig /\
     (sig = Main.requestSignature r \/ sig = "unsafe" \/
      sig = Sign (Main.Path r) (Main.SignatureSecretKey cfg))).
Proof.
  destruct (String.eqb_spec (Main.requestSignature r) "") as [Hs|Hs].
  - destruct (String.eqb_spec (Go.Header_Get (Main.Header r) "x-api-key") "")
      as [Hk|Hk].
    + right. exists "unsafe"%string. split; [|auto].
      apply serve_without_credentials; assumption.
    + rewrite serve_with_api_key by assumption.
      destruct (String.eqb_spec (Go.Header_Get (Main.Header r) "x-api-key")
                  (Main.SecretKey cfg)) as [E|E].
      * right. eexists. split; [reflexivity | auto].
      * left. auto.
  - right. eexists. split; [apply serve_with_signature, Hs | auto].
Qed.

(** X1: the handler answers a request itself only with 401
    "unauthorized", and only when the request has no signature and a
    non-empty API key different from the configured secret. *)
Theorem serve_responds_only_on_wrong_key (Sign : string -> string -> string)
  (cfg : Main.Config) (r : Main.Request) (status : Z) (body : string) :
  Main.serve Sign cfg r = Main.Responded status body ->
  status = 401 /\ body = "unauthorized"%string /\
  Main.requestSignature r = "" /\
  Go.Header_Get (Main.Header r) "x-api-key" <> "" /\
  Go.Header_Get (Main.Header r) "x-api-key" <> Main.SecretKey cfg.
Proof.
  intros H. destruct (serve_cases Sign cfg r) as [(E & Hs & Hk & Hne)|(sig & E & _)];
    rewrite E in H.
  - injection H as <- <-. auto.
  - discriminate H.
Qed.

Lemma serve_responds_only_on_wrong_key_witness :
  Go.Header_Get (Main.Header wrongKeyRequest) "x-api-key" <> Main.SecretKey production.
Proof.
  apply (serve_responds_only_on_wrong_key sampleSign production wrongKeyRequest
           401 "unauthorized"). reflexivity.
Defined.

(** X2: a request handed on keeps its method and its headers, the
    credential headers included; its query has lost every [x-signature]
    value and nothing else. *)
Theorem forwarded_request_clean (Sign : string -> string -> string)
  (cfg : Main.Config) (r r' : Main.Request) :
  Main.serve Sign cfg r = Main.Forwarded r' ->
  Main.Method r' = Main.Method r /\
  Main.Header r' = Main.Header r /\
  Main.Query r' !! "x-signature"%string = None /\
  Go.Values_Get (Main.Query r') "x-signature" = "" /\
  (forall k, k <> "x-signature"%string -> Main.Query r' !! k = Main.Query r !! k).
Proof.
  intros H. destruct (serve_cases Sign cfg r) as [(E & _)|(sig & E & _)];
    rewrite E in H; [discriminate H|].
  unfold Main.forward in H. injection H as <-. simpl.
  unfold Go.Values_Get, Go.Values_Del.
  rewrite lookup_delete_eq. repeat split.
  intros k Hk. apply lookup_delete_ne. congruence.
Qed.

Lemma forwarded_request_clean_witness :
  Main.Query
    {| Main.Method := "GET"; Main.Path := "/fromquery/200x200/cat.png";
       Main.Query := ∅;
       Main.Header := {[ "X-Signature" := ["fromheader"] ]} |}
    !! "x-signature"%string = None.
Proof.
  apply (forwarded_request_clean sampleSign production twiceSignedRequest).
  vm_compute. reflexivity.
Defined.

(** X3: for a request path [/serve] followed by [rest], the path handed
    on is [/], the signature, and [rest]: only the first [/serve] is
    cut, and the signature is the request's own, the reserved token, or
    the one minted for the request path. *)
Theorem forwarded_path_shape (Sign : string -> string -> string)
  (cfg : Main.Config) (r r' : Main.Request) (rest : string) :
  Main.Path r = "/serve" +:+ rest ->
  Main.serve Sign cfg r = Main.Forwarded r' ->
  exists sig, Main.Path r' = "/" +:+ sig +:+ rest /\
    (sig = Main.requestSignature r \/ sig = "unsafe"%string \/
     sig = Sign ("/serve" +:+ rest) (Main.SignatureSecretKey cfg)).
Proof.
  intros Hp H. destruct (serve_cases Sign cfg r) as [(E & _)|(sig & E & Hsig)];
    rewrite E in H; [discriminate H|].
  unfold Main.forward in H. injection H as <-. simpl.
  exists sig. rewrite Hp, TrimPrefix_app. rewrite Hp in Hsig. auto.
Qed.

Lemma forwarded_path_shape_witness :
  exists sig, "/fromquery/200x200/cat.png"%string = "/" +:+ sig +:+ "/200x200/cat.png" /\
    (sig = Main.requestSignature twiceSignedRequest \/ sig = "unsafe"%string \/
     sig = sampleSign ("/serve" +:+ "/200x200/cat.png")
             (Main.SignatureSecretKey production)).
Proof.
  apply (forwarded_path_shape sampleSign production twiceSignedRequest
           {| Main.Method := "GET"; Main.Path := "/fromquery/200x200/cat.png";
              Main.Query := ∅;
              Main.Header := {[ "X-Signature" := ["fromheader"] ]} |}
           "/200x200/cat.png").
  - reflexivity.
  - vm_compute. reflexivity.
Defined.

(** X4: the handler reads only the two secrets of the configuration:
    deployments that agree on them, whatever their environment and
    public mode, treat every request alike. *)
Theorem serve_reads_only_secrets (Sign : string -> string -> string)
  (cfg1 cfg2 : Main.Config) (r : Main.Request) :
  Main.SecretKey cfg1 = Main.SecretKey cfg2 ->
  Main.SignatureSecretKey cfg1 = Main.SignatureSecretKey cfg2 ->
  Main.serve Sign cfg1 r = Main.serve Sign cfg2 r.
Proof.
  intros H1 H2. unfold Main.serve. rewrite H1, H2. reflexivity.
Qed.

Lemma serve_reads_only_secrets_witness :
  Main.serve sampleSign production wrongKeyRequest =
  Main.serve sampleSign developmentPublic wrongKeyRequest.
Proof.
  apply (serve_reads_only_secrets sampleSign production developmentPublic
           wrongKeyRequest); reflexivity.
Defined.

(** ** The route table, read backwards *)

(** A route that answers is a registered one with the method of the
    request and a pattern matching its path. *)
Lemma dispatch_some (health : string) (cfg : Main.Config) (m p : string)
  (rt : Main.Route) :
  Main.dispatch health cfg m p = Some rt ->
  In rt (Main.routes health cfg) /\ Main.rMethod rt = m /\
  Main.matchPath (Main.rPath rt) p = true.
Proof.
  unfold Main.dispatch. intros H. apply find_some in H as [Hin Hm].
  unfold Main.matches in Hm. apply andb_prop in Hm as [Hmeth Hpath].
  apply String.eqb_eq in Hmeth. auto.
Qed.

Lemma verifyAccess_guards (cfg : Main.Config) (m pat : string) (h : Main.Handler) :
  Main.guarded cfg
    {| Main.rMethod := m; Main.rPath := pat; Main.rHandler := h;
       Main.rMiddleware := [Main.VerifyAccess (Main.SecretKey cfg)
                              (Main.SignatureSecretKey cfg)] |} = true.
Proof. unfold Main.guarded. simpl. now rewrite !String.eqb_refl. Qed.

Ltac route_cases H :=
  unfold Main.routes in H; simpl in H;
  repeat (destruct H as [H|H]; [symmetry in H|]); [..|contradiction].

(** X5: the blob store is reached without access verification by one
    kind of request only: a [GET] answered by the pattern [/blob/*]
    while [Public] is "true". *)
Theorem store_unguarded_only_public_read (health : string) (cfg : Main.Config)
  (m p : string) (rt : Main.Route) :
  Main.dispatch health cfg m p = Some rt ->
  Main.rHandler rt = Main.KvService ->
  Main.guarded cfg rt = false ->
  m = "GET"%string /\ Main.rPath rt = "/blob/*"%string /\
  Main.matchPath "/blob/*" p = true /\ Main.Public cfg = "true"%string.
Proof.
  intros H Hkv Hg. apply dispatch_some in H as (Hin & Hm & Hp).
  route_cases Hin; subst rt; simpl in *; try discriminate Hkv;
    try (rewrite verifyAccess_guards in Hg; discriminate Hg).
  destruct (String.eqb_spec (Main.Public cfg) "true") as [E|E]; simpl in *.
  - subst m. auto.
  - rewrite verifyAccess_guards in Hg. discriminate Hg.
Qed.

Lemma store_unguarded_only_public_read_witness :
  Main.Public publicDeployment = "true"%string.
Proof.
  apply (store_unguarded_only_public_read "/health" publicDeployment "GET"
           "/blob/cat.png"
           {| Main.rMethod := "GET"; Main.rPath := "/blob/*";
              Main.rHandler := Main.KvService; Main.rMiddleware := [] |});
    reflexivity.
Defined.

(** X6: a [PUT] or [DELETE] that is answered at all is answered by the
    blob store behind the access verification, under the pattern
    [/blob/*]; a [POST] or [PATCH] is answered by no route. *)
Theorem write_methods_routed_to_guarded_store (health : string)
  (cfg : Main.Config) (m p : string) :
  (forall rt, m = "PUT"%string \/ m = "DELETE"%string ->
     Main.dispatch health cfg m p = Some rt ->
     Main.rHandler rt = Main.KvService /\ Main.guarded cfg rt = true /\
     Main.rPath rt = "/blob/*"%string) /\
  (m = "POST"%string \/ m = "PATCH"%string ->
   Main.dispatch health cfg m p = None).
Proof.
  split.
  - intros rt Hm H. apply dispatch_some in H as (Hin & Hmeth & Hp).
    route_cases Hin; subst rt;
      try destruct (String.eqb_spec (Main.Public cfg) "true");
      simpl in *; subst m;
      try (destruct Hm as [Hm|Hm]; discriminate Hm);
      repeat split; apply verifyAccess_guards.
  - intros Hm. destruct (Main.dispatch health cfg m p) as [rt|] eqn:H;
      [|reflexivity].
    apply dispatch_some in H as (Hin & Hmeth & Hp).
    route_cases Hin; subst rt;
      try destruct (String.eqb_spec (Main.Public cfg) "true");
      simpl in *; subst m; destruct Hm as [Hm|Hm]; discriminate Hm.
Qed.

Lemma write_methods_routed_to_guarded_store_witness :
  Main.dispatch "/health" production "POST" "/blob/cat.png" = None.
Proof.
  apply (write_methods_routed_to_guarded_store "/health" production "POST"
           "/blob/cat.png"). left. reflexivity.
Defined.

Lemma sign_path (p : string) :
  Main.matchPath "/sign/*" p = true ->
  Main.matchPath "/serve/*" p = false /\ Main.matchPath "/blob" p = false /\
  Main.matchPath "/blob/*" p = false.
Proof.
  intros H. do 6 match_char H p. repeat split; reflexivity.
Qed.

(** X7: whatever the public mode, a [GET] under [/sign/] is answered
    by the signature service behind the API-key middleware built from
    the configured secret, and by no access-verification middleware. *)
Theorem sign_route_needs_api_key (health : string) (cfg : Main.Config)
  (p : string) :
  Main.matchPath "/sign/*" p = true ->
  Main.matchPath health p = false ->
  Main.dispatch health cfg "GET" p =
  Some {| Main.rMethod := "GET"; Main.rPath := "/sign/*";
          Main.rHandler := Main.SignatureService;
          Main.rMiddleware := [Main.VerifyAPIKey (Main.SecretKey cfg)] |}.
Proof.
  intros Hp Hh. destruct (sign_path p Hp) as (Hserve & Hcoll & Hkey).
  unfold Main.dispatch, Main.routes, Main.matches.
  destruct (String.eqb_spec (Main.Public cfg) "true") as [E|E];
    cbn [List.find Main.rMethod Main.rPath];
    rewrite Hp, Hh, Hserve, Hcoll, Hkey;
    change (String.eqb "GET" "GET") with true;
    change (String.eqb "PUT" "GET") with false;
    change (String.eqb "DELETE" "GET") with false;
    reflexivity.
Qed.

Lemma sign_route_needs_api_key_witness :
  Main.dispatch "/health" publicDeployment "GET" "/sign/blob/cat.png" =
  Some {| Main.rMethod := "GET"; Main.rPath := "/sign/*";
          Main.rHandler := Main.SignatureService;
          Main.rMiddleware := [Main.VerifyAPIKey "key"] |}.
Proof.
  apply (sign_route_needs_api_key "/health" publicDeployment
           "/sign/blob/cat.png"); reflexivity.
Defined.

(** X8: whenever a request is answered by the image handler, the
    route is the [GET] pattern [/serve/*] and it carries no handler of
    its own besides the image handler: neither the access verification
    nor the API-key middleware is registered on it, in any
    configuration. *)
Theorem image_handler_route_bare (health : string) (cfg : Main.Config)
  (m p : string) (rt : Main.Route) :
  Main.dispatch health cfg m p = Some rt ->
  Main.rHandler rt = Main.ServeImage ->
  m = "GET"%string /\ Main.rPath rt = "/serve/*"%string /\
  Main.rMiddleware rt = [] /\ Main.guarded cfg rt = false.
Proof.
  intros H Hh. apply dispatch_some in H as (Hin & Hm & Hp).
  route_cases Hin; subst rt;
    try destruct (String.eqb_spec (Main.Public cfg) "true");
    simpl in Hm, Hh |- *; try discriminate Hh; subst m; auto.
Qed.

Lemma image_handler_route_bare_witness :
  Main.rMiddleware
    {| Main.rMethod := "GET"; Main.rPath := "/serve/*";
       Main.rHandler := Main.ServeImage; Main.rMiddleware := [] |} = [].
Proof.
  apply (image_handler_route_bare "/health" production "GET"
           "/serve/200x200/cat.png"
           {| Main.rMethod := "GET"; Main.rPath := "/serve/*";
              Main.rHandler := Main.ServeImage; Main.rMiddleware := [] |});
    reflexivity.
Defined.

(** ** The CORS configuration *)

Lemma SplitByte_nonempty (s : string) (sep : Ascii.ascii) :
  Go.SplitByte s sep <> [].
Proof.
  destruct s as [|c t]; simpl; [discriminate|].
  destruct (Ascii.eqb c sep); [discriminate|].
  destruct (Go.SplitByte t sep); discriminate.
Qed.

Lemma concat_cons (sep x : string) (l : list string) :
  l <> [] -> String.concat sep (x :: l) = x +:+ sep +:+ String.concat sep l.
Proof. destruct l; [contradiction | reflexivity]. Qed.

Lemma SplitByte_concat (s : string) (sep : Ascii.ascii) :
  String.concat (String sep EmptyString) (Go.SplitByte s sep) = s.
Proof.
  induction s as [|c t IH]; [reflexivity|]. simpl.
  destruct (Ascii.eqb_spec c sep) as [->|Hne].
  - rewrite concat_cons by apply SplitByte_nonempty. rewrite IH. reflexivity.
  - pose proof (SplitByte_nonempty t sep) as Hn.
    destruct (Go.SplitByte t sep) as [|x [|y l]]; [contradiction| |].
    + simpl in *. now rewrite IH.
    + change (String.concat (String sep "") (String c x :: y :: l))
        with (String c (String.concat (String sep "") (x :: y :: l))).
      now rewrite IH.
Qed.

Lemma SplitByte_length (s : string) (sep : Ascii.ascii) :
  length (Go.SplitByte s sep) = S (Go.CountByte s sep).
Proof.
  induction s as [|c t IH]; [reflexivity|]. simpl.
  destruct (Ascii.eqb c sep); simpl; [now rewrite IH|].
  destruct (Go.SplitByte t sep); simpl in *; [discriminate IH | exact IH].
Qed.

Lemma SplitByte_pieces (s : string) (sep : Ascii.ascii) :
  Forall (fun piece => Go.occurs sep piece = false) (Go.SplitByte s sep).
Proof.
  induction s as [|c t IH]; simpl; [repeat constructor|].
  destruct (Ascii.eqb c sep) eqn:E; [constructor; [reflexivity | exact IH]|].
  destruct (Go.SplitByte t sep) as [|x l]; [repeat constructor; simpl; now rewrite E|].
  inversion IH as [|? ? Hx Hl]; subst. constructor; [|exact Hl].
  simpl. now rewrite E, Hx.
Qed.

(** A byte of a piece is a byte of the string that was split. *)
Lemma SplitByte_occurs (c sep : Ascii.ascii) (s : string) : forall piece,
  In piece (Go.SplitByte s sep) -> Go.occurs c piece = true ->
  Go.occurs c s = true.
Proof.
  induction s as [|d t IH]; simpl; intros piece Hin Hc.
  - destruct Hin as [<-|[]]. discriminate Hc.
  - destruct (Ascii.eqb d sep).
    + destruct Hin as [<-|Hin]; [discriminate Hc|].
      rewrite (IH piece Hin Hc). apply orb_true_r.
    + destruct (Go.SplitByte t sep) as [|x l] eqn:Es.
      * destruct Hin as [<-|[]]. simpl in Hc. rewrite orb_false_r in Hc.
        now rewrite Hc.
      * destruct Hin as [<-|Hin].
        -- simpl in Hc. apply orb_prop in Hc as [Hc|Hc]; [now rewrite Hc|].
           rewrite (IH x (or_introl eq_refl) Hc). apply orb_true_r.
        -- rewrite (IH piece (or_intror Hin) Hc). apply orb_true_r.
Qed.

(** X9: splitting at a separator byte loses nothing: joining the
    pieces with the separator gives the string back, there is one piece
    more than separators, so never none, and no piece contains the
    separator. *)
Theorem split_join_round_trip (s : string) (sep : Ascii.ascii) :
  String.concat (String sep EmptyString) (Go.SplitByte s sep) = s /\
  length (Go.SplitByte s sep) = S (Go.CountByte s sep) /\
  Forall (fun piece => Go.occurs sep piece = false) (Go.SplitByte s sep).
Proof.
  split; [apply SplitByte_concat|].
  split; [apply SplitByte_length | apply SplitByte_pieces].
Qed.

Lemma Contains_In (l : list string) (x : string) :
  Go.Contains l x = true <-> In x l.
Proof.
  unfold Go.Contains. rewrite existsb_exists. split.
  - intros (y & Hy & E). apply String.eqb_eq in E. now subst.
  - intros H. exists x. split; [exact H | apply String.eqb_refl].
Qed.

(** X10: the CORS middleware is never configured with credentials and
    the wildcard origin together: credentials are refused exactly when
    one of the comma-separated origins is "*", and they are allowed
    whenever the configured string has no asterisk at all; the list of
    origins is never empty. *)
Theorem cors_credentials_exclude_wildcard (origins : string) :
  (Main.AllowCredentials (Main.corsConfig origins) = false <->
   In "*"%string (Main.AllowOrigins (Main.corsConfig origins))) /\
  (Go.occurs (Ascii.ascii_of_N 42) origins = false ->
   Main.AllowCredentials (Main.corsConfig origins) = true) /\
  Main.AllowOrigins (Main.corsConfig origins) <> [].
Proof.
  unfold Main.corsConfig. cbn [Main.AllowCredentials Main.AllowOrigins].
  split; [|split].
  - rewrite negb_false_iff. apply Contains_In.
  - intros Hfree. rewrite negb_true_iff.
    destruct (Go.Contains _ "*") eqn:E; [|reflexivity].
    apply Contains_In in E.
    pose proof (SplitByte_occurs (Ascii.ascii_of_N 42) (Ascii.ascii_of_N 44)
                  origins "*" E eq_refl) as H.
    rewrite H in Hfree. discriminate Hfree.
  - apply SplitByte_nonempty.
Qed.

Lemma cors_credentials_exclude_wildcard_witness :
  Main.AllowCredentials
    (Main.corsConfig "https://a.example,https://b.example") = true.
Proof.
  apply (cors_credentials_exclude_wildcard
           "https://a.example,https://b.example"). reflexivity.
Defined.

(** ** The comparison of the API key *)

(** X11: on byte slices the constant-time comparison answers 1 exactly
    when the two slices are equal and 0 otherwise; slices of different
    lengths are never equal to it, so a key that is a prefix of the
    secret is refused. *)
Theorem compare_exact (x y : list Z) :
  Forall is_byte x -> Forall is_byte y ->
  (Go.ConstantTimeCompare x y = 1 <-> x = y) /\
  (Go.ConstantTimeCompare x y = 0 <-> x <> y) /\
  (length x <> length y -> Go.ConstantTimeCompare x y = 0).
Proof.
  intros Hx Hy. rewrite (ConstantTimeCompare_bytes x y Hx Hy).
  destruct (decide (x = y)) as [E|E]; repeat split; try (intros; congruence);
    try discriminate.
Qed.

Lemma compare_exact_witness :
  Go.ConstantTimeCompare (Go.bytes "key") (Go.bytes "keys") = 0.
Proof.
  apply (compare_exact (Go.bytes "key") (Go.bytes "keys"));
    [apply bytes_range | apply bytes_range | discriminate].
Defined.

(** ** When the signer is called *)

(** X12: the handler mints a signature only for a request without
    signature whose non-empty API key equals the configured secret: for
    every other request the outcome is the same whatever the signer is,
    and with an empty secret no request at all reaches the signer. *)
Theorem signer_called_only_for_valid_key (Sign1 Sign2 : string -> string -> string)
  (cfg : Main.Config) (r : Main.Request) :
  (Main.requestSignature r <> "" \/
   Go.Header_Get (Main.Header r) "x-api-key" = "" \/
   Go.Header_Get (Main.Header r) "x-api-key" <> Main.SecretKey cfg ->
   Main.serve Sign1 cfg r = Main.serve Sign2 cfg r) /\
  (Main.SecretKey cfg = "" ->
   Main.serve Sign1 cfg r = Main.serve Sign2 cfg r).
Proof.
  assert (Hmain : Main.requestSignature r <> "" \/
                  Go.Header_Get (Main.Header r) "x-api-key" = "" \/
                  Go.Header_Get (Main.Header r) "x-api-key" <> Main.SecretKey cfg ->
                  Main.serve Sign1 cfg r = Main.serve Sign2 cfg r).
  { intros H.
    destruct (String.eqb_spec (Main.requestSignature r) "") as [Hs|Hs].
    - destruct (String.eqb_spec (Go.Header_Get (Main.Header r) "x-api-key") "")
        as [Hk|Hk].
      + now rewrite !serve_without_credentials.
      + rewrite !serve_with_api_key by assumption.
        destruct (String.eqb_spec (Go.Header_Get (Main.Header r) "x-api-key")
                    (Main.SecretKey cfg)) as [E|E]; [|reflexivity].
        destruct H as [H|[H|H]]; contradiction.
    - now rewrite !serve_with_signature. }
  split; [exact Hmain|].
  intros Hsecret. apply Hmain.
  destruct (String.eqb_spec (Go.Header_Get (Main.Header r) "x-api-key") "")
    as [Hk|Hk]; [auto|].
  right. right. now rewrite Hsecret.
Qed.

Lemma signer_called_only_for_valid_key_witness :
  Main.serve sampleSign keyless wrongKeyRequest =
  Main.serve (fun _ _ => "other"%string) keyless wrongKeyRequest.
Proof.
  apply (signer_called_only_for_valid_key sampleSign (fun _ _ => "other"%string)
           keyless wrongKeyRequest). reflexivity.
Defined.
